(** * OCRmyPDF, [src/ocrmypdf/pdfa.py]: pdfmark generation and PDF/A claims

    A shallow embedding of the module, followed by the properties of its
    functions.  Python values are modelled as follows:

    - a [str] is the list of its Unicode code points ([pystr], code points
      as [N]; Python keeps every code point below [0x110000], lone
      surrogates included);
    - a [bytes] object is a [list byte];
    - a [dict] or a [set] is a [gmap] or a [gset];
    - a raised exception is the [Raise] case of [result];
    - the files touched by [Path.write_text] are a finite map from path
      to content, threaded through the call. *)

From Stdlib Require Import NArith Lia Strings.Byte Ascii String.
From stdpp Require Import base option list gmap strings.

Local Open Scope N_scope.

(** ** Python values *)

Abbreviation pystr := (list N).
Abbreviation bytes := (list byte).

(** A source literal: the code points of an ASCII string constant. *)
Fixpoint lit (s : string) : pystr :=
  match s with
  | EmptyString => []
  | String a s' => N_of_ascii a :: lit s'
  end.

(** The values kept in a dict of results. *)
Inductive pyval : Type :=
| VBool (b : bool)
| VStr (s : pystr).

Inductive exn : Type :=
| NotImplementedError (msg : pystr)
| UnicodeEncodeError
| UnicodeDecodeError
| ValueError
| KeyError (key : pystr)
| BinasciiError
| OSError
| PdfError.

Inductive result (A : Type) : Type :=
| Ok (a : A)
| Raise (e : exn).
Arguments Ok {A} a.
Arguments Raise {A} e.

(** Statements in sequence: [x ← r; k] runs [k] on the value of [r] and
    lets an exception of [r] through. *)
#[export] Instance result_bind : MBind result := fun A B k r =>
  match r with
  | Ok a => k a
  | Raise e => Raise e
  end.

(** ** The Python primitives the module calls *)

Module Py.

(** The byte of value [n mod 256]. *)
Definition byte_of_N (n : N) : byte :=
  match Byte.of_N (n mod 256) with
  | Some b => b
  | None => x00
  end.

Definition is_surrogate (c : N) : bool := (0xD800 <=? c) && (c <=? 0xDFFF).

(** A 16-bit code unit, high byte first. *)
Definition be16 (u : N) : bytes := [byte_of_N (u / 256); byte_of_N (u mod 256)].

(** [str.encode('utf-16be')] on one code point: a surrogate code point is
    refused ("surrogates not allowed"), a code point of the basic plane is
    one unit, any other is a surrogate pair. *)
Definition utf16be_encode_cp (c : N) : result bytes :=
  if is_surrogate c then Raise UnicodeEncodeError
  else if c <? 0x10000 then Ok (be16 c)
  else
    let v := c - 0x10000 in
    Ok (be16 (0xD800 + v / 0x400) ++ be16 (0xDC00 + v mod 0x400)).

Fixpoint str_encode_utf16be (s : pystr) : result bytes :=
  match s with
  | [] => Ok []
  | c :: s' =>
      b ← utf16be_encode_cp c;
      r ← str_encode_utf16be s';
      Ok (b ++ r)
  end.

(** [bytes.decode('utf-16be')]: units are read two bytes at a time, a high
    surrogate must be followed by a low one, and a trailing odd byte, a
    lone surrogate or a truncated pair is an error. *)
Fixpoint bytes_decode_utf16be (bs : bytes) : result pystr :=
  match bs with
  | [] => Ok []
  | [_] => Raise UnicodeDecodeError
  | b0 :: b1 :: t =>
      let u := 256 * Byte.to_N b0 + Byte.to_N b1 in
      if (0xD800 <=? u) && (u <? 0xDC00) then
        match t with
        | b2 :: b3 :: t' =>
            let w := 256 * Byte.to_N b2 + Byte.to_N b3 in
            if (0xDC00 <=? w) && (w <=? 0xDFFF) then
              r ← bytes_decode_utf16be t';
              Ok (0x10000 + (u - 0xD800) * 0x400 + (w - 0xDC00) :: r)
            else Raise UnicodeDecodeError
        | _ => Raise UnicodeDecodeError
        end
      else if (0xDC00 <=? u) && (u <=? 0xDFFF) then Raise UnicodeDecodeError
      else
        r ← bytes_decode_utf16be t;
        Ok (u :: r)
  end.

(** [binascii.hexlify]: two lowercase hexadecimal digits per byte. *)
Definition hex_digit (n : N) : byte :=
  if n <? 10 then byte_of_N (48 + n) else byte_of_N (87 + n).

Definition hexlify (bs : bytes) : bytes :=
  flat_map (fun b => [hex_digit (Byte.to_N b / 16); hex_digit (Byte.to_N b mod 16)]) bs.

(** [binascii.unhexlify] on a text of hexadecimal digits. *)
Definition hex_value (c : N) : option N :=
  if (48 <=? c) && (c <=? 57) then Some (c - 48)
  else if (97 <=? c) && (c <=? 102) then Some (c - 87)
  else if (65 <=? c) && (c <=? 70) then Some (c - 55)
  else None.

Fixpoint unhexlify (s : pystr) : result bytes :=
  match s with
  | [] => Ok []
  | [_] => Raise BinasciiError
  | h :: l :: t =>
      match hex_value h, hex_value l with
      | Some hv, Some lv =>
          r ← unhexlify t;
          Ok (byte_of_N (16 * hv + lv) :: r)
      | _, _ => Raise BinasciiError
      end
  end.

(** [bytes.decode('ascii')]. *)
Fixpoint bytes_decode_ascii (bs : bytes) : result pystr :=
  match bs with
  | [] => Ok []
  | b :: t =>
      if Byte.to_N b <? 128 then
        r ← bytes_decode_ascii t;
        Ok (Byte.to_N b :: r)
      else Raise UnicodeDecodeError
  end.

(** [str.encode('ascii')], strict. *)
Fixpoint str_encode_ascii (s : pystr) : result bytes :=
  match s with
  | [] => Ok []
  | c :: t =>
      if c <? 128 then
        r ← str_encode_ascii t;
        Ok (byte_of_N c :: r)
      else Raise UnicodeEncodeError
  end.

(** [str.encode('ascii', errors='replace')]: one question mark for each
    character outside ASCII. *)
Definition str_encode_ascii_replace (s : pystr) : bytes :=
  map (fun c => if c <? 128 then byte_of_N c else byte_of_N 63) s.

(** [str.lower] on the ASCII letters.  Every string it is applied to in
    this module comes out of [bytes_decode_ascii], so the case mapping of
    the other code points is not needed and they are left as they are. *)
Definition str_lower (s : pystr) : pystr :=
  map (fun c => if (65 <=? c) && (c <=? 90) then c + 32 else c) s.

(** [s.replace(old, new)] for a one-character [old]. *)
Definition str_replace1 (old : N) (new : pystr) (s : pystr) : pystr :=
  flat_map (fun c => if N.eqb c old then new else [c]) s.

(** [str.translate] with a table built by [str.maketrans] from a dict of
    one-character keys: a character in the table is replaced by its
    entry, any other is kept. *)
Definition str_translate (table : gmap N pystr) (s : pystr) : pystr :=
  flat_map (fun c => match table !! c with Some r => r | None => [c] end) s.

(** [bytes.decode()], that is UTF-8, strict: shortest forms only, no
    surrogates, nothing above [0x10FFFF]. *)
Definition is_cont (b : byte) : bool :=
  (0x80 <=? Byte.to_N b) && (Byte.to_N b <=? 0xBF).

Definition cont (b : byte) : N := Byte.to_N b - 0x80.

Fixpoint bytes_decode_utf8 (bs : bytes) : result pystr :=
  match bs with
  | [] => Ok []
  | b0 :: t0 =>
      let n0 := Byte.to_N b0 in
      if n0 <? 0x80 then
        r ← bytes_decode_utf8 t0; Ok (n0 :: r)
      else if (0xC2 <=? n0) && (n0 <=? 0xDF) then
        match t0 with
        | b1 :: t1 =>
            if is_cont b1 then
              r ← bytes_decode_utf8 t1;
              Ok ((n0 - 0xC0) * 0x40 + cont b1 :: r)
            else Raise UnicodeDecodeError
        | _ => Raise UnicodeDecodeError
        end
      else if (0xE0 <=? n0) && (n0 <=? 0xEF) then
        match t0 with
        | b1 :: b2 :: t2 =>
            let c := (n0 - 0xE0) * 0x1000 + cont b1 * 0x40 + cont b2 in
            if is_cont b1 && is_cont b2 && (0x800 <=? c) && negb (is_surrogate c) then
              r ← bytes_decode_utf8 t2; Ok (c :: r)
            else Raise UnicodeDecodeError
        | _ => Raise UnicodeDecodeError
        end
      else if (0xF0 <=? n0) && (n0 <=? 0xF4) then
        match t0 with
        | b1 :: b2 :: b3 :: t3 =>
            let c := (n0 - 0xF0) * 0x40000 + cont b1 * 0x1000
                     + cont b2 * 0x40 + cont b3 in
            if is_cont b1 && is_cont b2 && is_cont b3
               && (0x10000 <=? c) && (c <? 0x110000) then
              r ← bytes_decode_utf8 t3; Ok (c :: r)
            else Raise UnicodeDecodeError
        | _ => Raise UnicodeDecodeError
        end
      else Raise UnicodeDecodeError
  end.

(** [string.Template(t).substitute] with keyword arguments [kw] (Python
    3.7 and later, where identifiers are ASCII).  After a dollar sign come another dollar sign
    (an escaped one), an identifier, or an identifier in braces; anything
    else is a [ValueError], and an identifier that [kw] lacks is a
    [KeyError].  The text is scanned once from left to right; [scan] is
    what the scanner has just read. *)
Inductive scan : Type :=
| Text
| Dollar
| Named (id : pystr)
| Braced (id : pystr).

Definition is_id_start (c : N) : bool :=
  (c =? 95) || ((97 <=? c) && (c <=? 122)) || ((65 <=? c) && (c <=? 90)).

Definition is_id_char (c : N) : bool :=
  is_id_start c || ((48 <=? c) && (c <=? 57)).

Definition kw_lookup (kw : gmap pystr pystr) (id : pystr) : result pystr :=
  match kw !! id with
  | Some v => Ok v
  | None => Raise (KeyError id)
  end.

Fixpoint substitute_from (kw : gmap pystr pystr) (st : scan) (t : pystr)
  : result pystr :=
  match t with
  | [] =>
      match st with
      | Text => Ok []
      | Named id => kw_lookup kw id
      | Dollar | Braced _ => Raise ValueError
      end
  | c :: t' =>
      match st with
      | Text =>
          if c =? 36 then substitute_from kw Dollar t'
          else r ← substitute_from kw Text t'; Ok (c :: r)
      | Dollar =>
          if c =? 36 then r ← substitute_from kw Text t'; Ok (c :: r)
          else if c =? 123 then substitute_from kw (Braced []) t'
          else if is_id_start c then substitute_from kw (Named [c]) t'
          else Raise ValueError
      | Named id =>
          if is_id_char c then substitute_from kw (Named (id ++ [c])) t'
          else
            v ← kw_lookup kw id;
            if c =? 36 then r ← substitute_from kw Dollar t'; Ok (v ++ r)
            else r ← substitute_from kw Text t'; Ok (v ++ c :: r)
      | Braced id =>
          if c =? 125 then
            match id with
            | [] => Raise ValueError
            | _ => v ← kw_lookup kw id;
                   r ← substitute_from kw Text t'; Ok (v ++ r)
            end
          else if match id with [] => is_id_start c | _ => is_id_char c end
          then substitute_from kw (Braced (id ++ [c])) t'
          else Raise ValueError
      end
  end.

Definition Template_substitute (t : pystr) (kw : gmap pystr pystr) : result pystr :=
  substitute_from kw Text t.

(** [os.linesep]: a line feed on POSIX systems, carriage return and line
    feed on Windows.  A file opened in text mode writes it for each
    ['\n']. *)
Inductive newline : Type := LF | CRLF.

Definition linesep (nl : newline) : pystr :=
  match nl with
  | LF => [10]
  | CRLF => [13; 10]
  end.

(** [os.fsencode] where the file system encoding is UTF-8 with the
    [surrogateescape] error handler, the default on POSIX systems: the
    code points [U+DC80] to [U+DCFF] stand for the bytes [0x80] to [0xFF],
    and any other surrogate is refused. *)
Definition fsencode_utf8_cp (c : N) : result bytes :=
  if c <? 0x80 then Ok [byte_of_N c]
  else if c <? 0x800 then Ok [byte_of_N (0xC0 + c / 0x40); byte_of_N (0x80 + c mod 0x40)]
  else if is_surrogate c then
    if (0xDC80 <=? c) && (c <=? 0xDCFF) then Ok [byte_of_N (c - 0xDC00)]
    else Raise UnicodeEncodeError
  else if c <? 0x10000 then
    Ok [byte_of_N (0xE0 + c / 0x1000); byte_of_N (0x80 + (c / 0x40) mod 0x40);
        byte_of_N (0x80 + c mod 0x40)]
  else
    Ok [byte_of_N (0xF0 + c / 0x40000); byte_of_N (0x80 + (c / 0x1000) mod 0x40);
        byte_of_N (0x80 + (c / 0x40) mod 0x40); byte_of_N (0x80 + c mod 0x40)].

Fixpoint fsencode_utf8 (s : pystr) : result bytes :=
  match s with
  | [] => Ok []
  | c :: s' =>
      b ← fsencode_utf8_cp c;
      r ← fsencode_utf8 s';
      Ok (b ++ r)
  end.

End Py.

(** ** The module *)

Module Pdfa.
Import Py.

(** Modelled from the spec: the decorator [deprecated] comes from
    [helpers.py], which is not among the sources.  The specification
    describes the deprecated helpers as thin pass-through calls that emit
    a warning, so the decorated function is the function itself; the
    warning is not modelled. *)
Definition deprecated {A B : Type} (func : A -> B) : A -> B := func.

(** [encode_text_string]. *)
Definition encode_text_string : pystr -> result pystr :=
  deprecated (fun s =>
    let s := str_replace1 0 [] s in
    if decide (s = []) then Ok []
    else
      utf16_bytes ← str_encode_utf16be s;
      let ascii_hex_bytes := hexlify (xfe :: xff :: utf16_bytes) in
      ascii_hex_str ← bytes_decode_ascii ascii_hex_bytes;
      Ok (str_lower ascii_hex_str)).

(** [_encode_ascii], [trans] being the table that [str.maketrans] builds. *)
Definition trans : gmap N pystr :=
  <[N_of_ascii "(" := []]> (<[N_of_ascii ")" := []]>
    (<[N_of_ascii "\" := []]> (<[0 := []]> ∅))).

Definition _encode_ascii (s : pystr) : result pystr :=
  bytes_decode_utf8 (str_encode_ascii_replace (str_translate trans s)).

(** The PostScript template, [$icc_profile] and [$icc_identifier] being
    its two substitution variables. *)
Definition pdfa_def_template : pystr := lit "%!
% Define entries in the document Info dictionary :
/ICCProfile $icc_profile
def

% Define an ICC profile :

[/_objdef {icc_PDFA} /type /stream /OBJ pdfmark
[{icc_PDFA}
<<
  /N currentpagedevice /ProcessColorModel known {
    currentpagedevice /ProcessColorModel get dup /DeviceGray eq
    {pop 1} {
      /DeviceRGB eq
      {3}{4} ifelse
    } ifelse
  } {
    (ERROR, unable to determine ProcessColorModel) == flush
  } ifelse
>> /PUT pdfmark
[{icc_PDFA} ICCProfile (r) file /PUT pdfmark

% Define the output intent dictionary :

[/_objdef {OutputIntent_PDFA} /type /dict /OBJ pdfmark
[{OutputIntent_PDFA} <<
  /Type /OutputIntent             % Must be so (the standard requires).
  /S /GTS_PDFA1                   % Must be so (the standard requires).
  /DestOutputProfile {icc_PDFA}            % Must be so (see above).
  /OutputConditionIdentifier ($icc_identifier)
>> /PUT pdfmark
[{Catalog} <</OutputIntents [ {OutputIntent_PDFA} ]>> /PUT pdfmark
".

(** [_get_pdfa_def]: [pdfmark] and [ascii_docinfo] are parameters of the
    function, of any type, and its body does not read them. *)
Definition _get_pdfa_def {P A : Type} (icc_profile icc_identifier : pystr)
    (pdfmark : P) (ascii_docinfo : A) : result pystr :=
  let t := pdfa_def_template in
  result ← Template_substitute t
    (<[lit "icc_identifier" := icc_identifier]>
       (<[lit "icc_profile" := icc_profile]> ∅));
  Ok result.

Section Generator.

(** What the module takes from where it is installed and run: the path of
    the bundled profile ([pkg_resources.resource_filename]), the file
    system encoding behind [os.fsencode], the line separator, and which
    paths the operating system lets the process open for writing. *)
Variable SRGB_ICC_PROFILE : pystr.
Variable os_fsencode : pystr -> result bytes.
Variable os_linesep : newline.
Variable writable : pystr -> bool.

(** [Path(p).write_text(data, encoding='ascii')]: the file is opened in
    text mode ['w'], which creates or empties it, and then [data], its
    line feeds turned into the line separator, is encoded and written;
    when a character cannot be encoded the exception leaves the empty
    file behind, and when the path cannot be opened nothing changes.  The
    count of characters that Python returns is dropped, as the caller
    drops it.  Of the failures of the operating system only a refused
    open is kept, as [OSError]: a write that fails after the open, a path
    that Python itself refuses, and two paths that name one file are
    outside this model, which is used for what a call that succeeds
    writes and for the calls that stop before the open. *)
Definition Path_write_text (p : pystr) (data : pystr) (fs : gmap pystr bytes)
  : result unit * gmap pystr bytes :=
  if writable p then
    let fs := <[p := []]> fs in
    match str_encode_ascii (str_replace1 10 (linesep os_linesep) data) with
    | Ok b => (Ok (), <[p := b]> fs)
    | Raise e => (Raise e, fs)
    end
  else (Raise OSError, fs).

(** [generate_pdfa_ps] up to its last statement: the text [ps], computed
    without touching a file.  The call of [_get_pdfa_def] leaves
    [ascii_docinfo] to its default, [None]. *)
Definition generate_pdfa_ps_text {P : Type} (pdfmark : P) (icc : pystr)
  : result pystr :=
  icc_profile ←
    (if decide (icc = lit "sRGB") then Ok SRGB_ICC_PROFILE
     else Raise (NotImplementedError (lit "Only supporting sRGB")));
  bytes_icc_profile ← os_fsencode icc_profile;
  let hex_icc_profile := hexlify bytes_icc_profile in
  hex_str ← bytes_decode_ascii hex_icc_profile;
  let icc_profile := lit "<" ++ hex_str ++ lit ">" in
  _get_pdfa_def icc_profile icc pdfmark (@None pyval).

(** [generate_pdfa_ps]: the outcome of the call and the files it leaves. *)
Definition generate_pdfa_ps {P A : Type} (target_filename : pystr)
    (pdfmark : P) (icc : pystr) (ascii_docinfo : A) (fs : gmap pystr bytes)
  : result unit * gmap pystr bytes :=
  match generate_pdfa_ps_text pdfmark icc with
  | Ok ps => Path_write_text target_filename ps fs
  | Raise e => (Raise e, fs)
  end.

End Generator.

(** What [file_claims_pdfa] gets from pikepdf: [pikepdf.open] gives a
    document or fails, [open_metadata] gives its XMP metadata or fails,
    and [pdfa_status] is the claimed level, [None] standing for a value
    that is absent (any value Python takes as false) and [Some []] for
    the empty string. *)
Record PdfMetadata : Type := { pdfa_status : option pystr }.
Record Pdf : Type := { open_metadata : result PdfMetadata }.

Definition valid_part_conforms : gset pystr :=
  {[ lit "1A"; lit "1B"; lit "2A"; lit "2B"; lit "2U"; lit "3A"; lit "3B"; lit "3U" ]}.

Section Checker.

Variable pikepdf_open : pystr -> result Pdf.

Definition file_claims_pdfa (filename : pystr) : result (gmap pystr pyval) :=
  pdf ← pikepdf_open filename;
  pdfmeta ← open_metadata pdf;
  match pdfa_status pdfmeta with
  | None | Some [] =>
      Ok (<[lit "conformance" := VStr (lit "No PDF/A metadata in XMP")]>
            (<[lit "output" := VStr (lit "pdf")]>
               (<[lit "pass" := VBool false]> ∅)))
  | Some status =>
      let conformance := lit "PDF/A-" ++ status in
      let pdfa_dict : gmap pystr pyval := ∅ in
      let pdfa_dict :=
        if decide (status ∈ valid_part_conforms) then
          <[lit "output" := VStr (lit "pdfa")]>
            (<[lit "pass" := VBool true]> pdfa_dict)
        else pdfa_dict in
      Ok (<[lit "conformance" := VStr conformance]> pdfa_dict)
  end.

End Checker.

End Pdfa.

Import Py Pdfa.

(** ** Vocabulary of the properties *)

(** Every code point of a Python [str] is below [0x110000]. *)
Definition pystr_wf (s : pystr) : Prop := Forall (fun c => c < 0x110000) s.

Definition no_surrogates (s : pystr) : Prop :=
  Forall (fun c => is_surrogate c = false) s.

(** The round trip of the text-to-hex encoder: the output is hex-decoded,
    its first two bytes are dropped and the rest is read as big-endian
    UTF-16, which gives back [s] without its NUL characters. *)
Definition text_string_round_trips (s : pystr) : Prop :=
  exists h raw,
    encode_text_string s = Ok h /\
    unhexlify h = Ok raw /\
    bytes_decode_utf16be (drop 2 raw) = Ok (filter (fun c => c <> 0) s).

(** A byte, its two hexadecimal digits read as ASCII text and lowered,
    and back. *)
Definition hex_text (b : byte) : pystr :=
  str_lower (map Byte.to_N (hexlify [b])).

(** The characters [hexlify] writes: digits and the lowercase letters
    [a] to [f]. *)
Definition hex_char (d : byte) : bool :=
  ((48 <=? Byte.to_N d) && (Byte.to_N d <=? 57))
  || ((97 <=? Byte.to_N d) && (Byte.to_N d <=? 102)).

(** The bytes of an ASCII constant. *)
Definition blit (s : string) : bytes := map byte_of_N (lit s).

(** The template around its two variables. *)
Definition template_head : pystr := take 66%nat pdfa_def_template.
Definition template_body : pystr := take 779%nat (drop 78%nat pdfa_def_template).
Definition template_tail : pystr := drop 872%nat pdfa_def_template.

(** Reading the ICC profile back from a pdfmark file: the text after the
    first [/ICCProfile <] and before the [>] that follows. *)
Fixpoint strip_prefix (m bs : bytes) : option bytes :=
  match m, bs with
  | [], _ => Some bs
  | x :: m', y :: bs' => if Byte.eqb x y then strip_prefix m' bs' else None
  | _ :: _, [] => None
  end.

Fixpoint after_marker (m bs : bytes) : option bytes :=
  match strip_prefix m bs with
  | Some r => Some r
  | None =>
      match bs with
      | [] => None
      | _ :: t => after_marker m t
      end
  end.

Fixpoint until (d : byte) (bs : bytes) : option bytes :=
  match bs with
  | [] => None
  | b :: t => if Byte.eqb b d then Some [] else cons b <$> until d t
  end.

Definition icc_profile_literal (content : bytes) : option bytes :=
  after_marker (blit "/ICCProfile <") content ≫= until ">"%byte.

Definition contains (needle hay : bytes) : Prop :=
  exists a b, hay = a ++ needle ++ b.

(** The text written for the identifier [sRGB] when the path of the
    bundled profile encodes to the bytes [pb]. *)
Definition pdfmark_text (pb : bytes) : pystr :=
  template_head ++ (lit "<" ++ map Byte.to_N (hexlify pb) ++ lit ">")
    ++ template_body ++ lit "sRGB" ++ template_tail.

(** The same text as a file opened in text mode writes it. *)
Definition text_mode (nl : newline) (s : pystr) : pystr :=
  str_replace1 10 (linesep nl) s.

Definition pdfmark_file (nl : newline) (pb : bytes) : bytes :=
  map byte_of_N (text_mode nl (pdfmark_text pb)).

Definition is_ascii (s : pystr) : Prop := Forall (fun c => c < 128) s.

Definition printable_ascii (c : N) : Prop := 0x20 <= c <= 0x7E.

Definition no_postscript_delimiter (c : N) : Prop :=
  c <> N_of_ascii "(" /\ c <> N_of_ascii ")" /\ c <> N_of_ascii "\".

(** C8 as the specification states it. *)
Definition ascii_stripper_printable (s : pystr) : Prop :=
  exists out, _encode_ascii s = Ok out /\
    Forall printable_ascii out /\ Forall no_postscript_delimiter out.

Definition stripped (c : N) : Prop := c = 40 \/ c = 41 \/ c = 92 \/ c = 0.

Definition site_packages_profile : pystr :=
  lit "/usr/lib/python3/site-packages/ocrmypdf/data/sRGB.icc".

Definition conformance_of (d : gmap pystr pyval) : option pystr :=
  match d !! lit "conformance" with
  | Some (VStr c) => Some c
  | _ => None
  end.

(** C1 as the specification states it: the fixed message, or [PDF/A-]
    and one of the recognized codes. *)
Definition recognized_conformance (c : pystr) : Prop :=
  c = lit "No PDF/A metadata in XMP" \/
  exists code, code ∈ valid_part_conforms /\ c = lit "PDF/A-" ++ code.

(** What the code puts in the field for a status read from the file. *)
Definition claimed_conformance (status : option pystr) : pystr :=
  match status with
  | None | Some [] => lit "No PDF/A metadata in XMP"
  | Some code => lit "PDF/A-" ++ code
  end.

(** A document whose metadata carries the given status. *)
Definition pdf_with_status (status : option pystr) : Pdf :=
  {| open_metadata := Ok {| pdfa_status := status |} |}.

(** C10 as the specification states it: the empty string for a string
    of NULs only, and for every other string an output that starts with
    the byte order mark. *)
Definition empty_or_bom_prefixed (s : pystr) : Prop :=
  (Forall (fun c => c = 0) s -> encode_text_string s = Ok []) /\
  (~ Forall (fun c => c = 0) s ->
   exists t, encode_text_string s = Ok (lit "feff" ++ t)).

(** The characters of a lowercase hexadecimal text. *)
Definition lower_hex (c : N) : Prop := 48 <= c <= 57 \/ 97 <= c <= 102.

(** The number of 16-bit units of the UTF-16 form of a string. *)
Definition utf16_units (s : pystr) : nat :=
  sum_list_with (fun c => if c <? 0x10000 then 1%nat else 2%nat) s.

Definition has_surrogate (s : pystr) : Prop :=
  Exists (fun c => is_surrogate c = true) s.

(** An ASCII character that [_encode_ascii] keeps. *)
Definition safe_ascii (c : N) : Prop := 0 < c < 128 /\ no_postscript_delimiter c.

(** * Properties *)

(** ** The embedding on concrete values *)

Example encode_text_string_hi :
  encode_text_string (lit "hi") = Ok (lit "feff00680069").
Proof. reflexivity. Qed.

Example encode_text_string_astral :
  encode_text_string [0x1F600; 0] = Ok (lit "feffd83dde00").
Proof. reflexivity. Qed.

Example _encode_ascii_mixed :
  _encode_ascii (lit "a(b)c\d" ++ [0; 0xE9; 0x20AC; 0x0A]) = Ok (lit "abcd??" ++ [0x0A]).
Proof. reflexivity. Qed.

Example Template_substitute_forms :
  Template_substitute (lit "$a-$$-${b}c")
    (<[lit "a" := lit "x"]> (<[lit "b" := lit "y"]> ∅))
  = Ok (lit "x-$-yc").
Proof. reflexivity. Qed.

Example Template_substitute_missing :
  Template_substitute (lit "($a)") ∅ = Raise (KeyError (lit "a")).
Proof. reflexivity. Qed.

Example Template_substitute_invalid :
  Template_substitute (lit "100$ ") ∅ = Raise ValueError.
Proof. reflexivity. Qed.

Example fsencode_utf8_escaped :
  fsencode_utf8 [0x2F; 0xE9; 0xDCFF] = Ok [x2f; xc3; xa9; xff].
Proof. reflexivity. Qed.

Example bytes_decode_utf8_euro :
  bytes_decode_utf8 [xe2; x82; xac; x41] = Ok [0x20AC; 0x41].
Proof. reflexivity. Qed.

Example file_claims_pdfa_unset_fields :
  file_claims_pdfa (fun _ => Ok (pdf_with_status (Some (lit "1C")))) (lit "in.pdf")
  = Ok (<[lit "conformance" := VStr (lit "PDF/A-1C")]> ∅).
Proof. reflexivity. Qed.

(** ** Bytes and hexadecimal digits *)

Lemma to_N_lt_256 b : Byte.to_N b < 256.
Proof. pose proof (Byte.to_N_bounded b). lia. Qed.

Lemma byte_of_to_N b : byte_of_N (Byte.to_N b) = b.
Proof.
  unfold byte_of_N.
  rewrite N.mod_small by apply to_N_lt_256.
  now rewrite Byte.of_to_N.
Qed.

Lemma to_N_byte_of_N n : n < 256 -> Byte.to_N (byte_of_N n) = n.
Proof.
  intros Hn. unfold byte_of_N. rewrite N.mod_small by assumption.
  destruct (Byte.of_N n) as [b|] eqn:E.
  - now apply Byte.to_of_N.
  - apply Byte.of_N_None_iff in E. lia.
Qed.

Lemma hexlify_hex_char1 b : forallb hex_char (hexlify [b]) = true.
Proof. destruct b; reflexivity. Qed.

Lemma hexlify_hex_char bs : Forall (fun d => hex_char d = true) (hexlify bs).
Proof.
  induction bs as [|b bs IH]; [constructor|].
  change (hexlify (b :: bs)) with (hexlify [b] ++ hexlify bs).
  apply Forall_app. split; [|exact IH].
  apply Forall_forall. intros d Hd.
  pose proof (hexlify_hex_char1 b) as H.
  rewrite forallb_forall in H. apply H. now apply list_elem_of_In.
Qed.

Lemma hex_char_range d :
  hex_char d = true ->
  48 <= Byte.to_N d <= 57 \/ 97 <= Byte.to_N d <= 102.
Proof.
  unfold hex_char. intros H. apply orb_true_iff in H.
  destruct H as [H|H]; apply andb_true_iff in H; destruct H as [H1 H2];
    apply N.leb_le in H1; apply N.leb_le in H2; [left|right]; lia.
Qed.

Lemma hex_text_ascii b : Forall (fun d => (Byte.to_N d <? 128) = true) (hexlify [b]).
Proof.
  eapply Forall_impl; [apply hexlify_hex_char|].
  intros d Hd. apply hex_char_range in Hd. apply N.ltb_lt. lia.
Qed.

Lemma unhexlify_hex_text b t :
  unhexlify (hex_text b ++ t) = (r ← unhexlify t; Ok (b :: r)).
Proof. destruct b; reflexivity. Qed.

Lemma hexlify_cons b bs : hexlify (b :: bs) = hexlify [b] ++ hexlify bs.
Proof. unfold hexlify. simpl. reflexivity. Qed.

Lemma bytes_decode_ascii_app a b :
  Forall (fun d => (Byte.to_N d <? 128) = true) a ->
  bytes_decode_ascii (a ++ b) =
    (r ← bytes_decode_ascii b; Ok (map Byte.to_N a ++ r)).
Proof.
  induction 1 as [|d a Hd _ IH]; simpl.
  - now destruct (bytes_decode_ascii b).
  - rewrite Hd, IH. now destruct (bytes_decode_ascii b).
Qed.

Lemma bytes_decode_ascii_hexlify bs :
  bytes_decode_ascii (hexlify bs) = Ok (map Byte.to_N (hexlify bs)).
Proof.
  induction bs as [|b bs IH]; [reflexivity|].
  rewrite hexlify_cons, bytes_decode_ascii_app by apply hex_text_ascii.
  rewrite IH. reflexivity.
Qed.

Lemma unhexlify_hexlify bs :
  unhexlify (str_lower (map Byte.to_N (hexlify bs))) = Ok bs.
Proof.
  induction bs as [|b bs IH]; [reflexivity|].
  rewrite hexlify_cons, map_app. unfold str_lower at 1. rewrite map_app.
  change (unhexlify (hex_text b ++ str_lower (map Byte.to_N (hexlify bs))) = Ok (b :: bs)).
  now rewrite unhexlify_hex_text, IH.
Qed.

(** ** UTF-16 *)

Lemma be16_value u :
  u < 0x10000 ->
  be16 u = [byte_of_N (u / 256); byte_of_N (u mod 256)] /\
  256 * Byte.to_N (byte_of_N (u / 256)) + Byte.to_N (byte_of_N (u mod 256)) = u.
Proof.
  intros Hu. split; [reflexivity|].
  assert (u / 256 < 256) by (apply N.Div0.div_lt_upper_bound; lia).
  assert (u mod 256 < 256) by (apply N.mod_lt; lia).
  rewrite !to_N_byte_of_N by assumption.
  pose proof (N.div_mod u 256). lia.
Qed.

Lemma decode_utf16be_unit u t :
  u < 0x10000 -> is_surrogate u = false ->
  bytes_decode_utf16be (be16 u ++ t) =
    (r ← bytes_decode_utf16be t; Ok (u :: r)).
Proof.
  intros Hu Hs. destruct (be16_value u Hu) as [-> Hv].
  cbn [app bytes_decode_utf16be]. rewrite Hv.
  unfold is_surrogate in Hs.
  replace ((0xD800 <=? u) && (u <? 0xDC00)) with false
    by (symmetry; apply andb_false_iff; apply andb_false_iff in Hs;
        destruct Hs as [H|H]; [left; exact H|right; apply N.ltb_ge; apply N.leb_gt in H; lia]).
  replace ((0xDC00 <=? u) && (u <=? 0xDFFF)) with false
    by (symmetry; apply andb_false_iff; apply andb_false_iff in Hs;
        destruct Hs as [H|H]; [left; apply N.leb_gt; apply N.leb_gt in H; lia|right; exact H]).
  reflexivity.
Qed.

Lemma decode_utf16be_pair hi lo t :
  0xD800 <= hi < 0xDC00 -> 0xDC00 <= lo < 0xE000 ->
  bytes_decode_utf16be (be16 hi ++ be16 lo ++ t) =
    (r ← bytes_decode_utf16be t;
     Ok (0x10000 + (hi - 0xD800) * 0x400 + (lo - 0xDC00) :: r)).
Proof.
  intros Hhi Hlo.
  destruct (be16_value hi) as [-> Hv]; [lia|].
  destruct (be16_value lo) as [-> Hw]; [lia|].
  cbn [app bytes_decode_utf16be]. rewrite Hv, Hw.
  replace ((0xD800 <=? hi) && (hi <? 0xDC00)) with true
    by (symmetry; apply andb_true_iff; split; [apply N.leb_le|apply N.ltb_lt]; lia).
  replace ((0xDC00 <=? lo) && (lo <=? 0xDFFF)) with true
    by (symmetry; apply andb_true_iff; split; apply N.leb_le; lia).
  reflexivity.
Qed.

Lemma utf16be_cp_round_trip c t :
  c < 0x110000 -> is_surrogate c = false ->
  exists b, utf16be_encode_cp c = Ok b /\
    bytes_decode_utf16be (b ++ t) = (r ← bytes_decode_utf16be t; Ok (c :: r)).
Proof.
  intros Hc Hs. unfold utf16be_encode_cp. rewrite Hs.
  destruct (c <? 0x10000) eqn:E.
  - apply N.ltb_lt in E. eexists; split; [reflexivity|].
    now apply decode_utf16be_unit.
  - apply N.ltb_ge in E. eexists; split; [reflexivity|].
    set (v := c - 0x10000).
    assert (Hv : v < 0x100000) by (unfold v; lia).
    assert (Hq : v / 0x400 < 0x400) by (apply N.Div0.div_lt_upper_bound; lia).
    assert (Hr : v mod 0x400 < 0x400) by (apply N.mod_lt; lia).
    assert (Hdm : v = 0x400 * (v / 0x400) + v mod 0x400)
      by (apply N.div_mod; lia).
    set (q := v / 0x400) in *. set (m := v mod 0x400) in *.
    clearbody q m.
    rewrite <- app_assoc, decode_utf16be_pair by lia.
    replace (0x10000 + (0xD800 + q - 0xD800) * 0x400 + (0xDC00 + m - 0xDC00))
      with c by (unfold v in Hdm; lia).
    reflexivity.
Qed.

Lemma utf16be_round_trip s :
  pystr_wf s -> no_surrogates s ->
  exists u, str_encode_utf16be s = Ok u /\ bytes_decode_utf16be u = Ok s.
Proof.
  unfold pystr_wf, no_surrogates.
  induction s as [|c s IH]; intros Hwf Hns.
  - exists []. split; reflexivity.
  - inversion Hwf as [|? ? Hc Hwf']; inversion Hns as [|? ? Hsc Hns']; subst.
    destruct (IH Hwf' Hns') as (u & Hu & Hd).
    destruct (utf16be_cp_round_trip c u Hc Hsc) as (b & Hb & Hbd).
    exists (b ++ u). split.
    + cbn [str_encode_utf16be]. rewrite Hb, Hu. reflexivity.
    + rewrite Hbd, Hd. reflexivity.
Qed.

(** ** [encode_text_string] *)

Lemma str_replace1_nul s : str_replace1 0 [] s = filter (fun c => c <> 0) s.
Proof.
  induction s as [|c s IH]; [reflexivity|].
  unfold str_replace1 in *. cbn [flat_map]. rewrite IH, filter_cons.
  destruct (N.eqb_spec c 0) as [->|Hc].
  - now rewrite decide_False by (intros H; now apply H).
  - now rewrite decide_True by assumption.
Qed.

Lemma Forall_filter_keeps (P Q : N -> Prop) `{!forall c, Decision (Q c)} s :
  Forall P s -> Forall P (filter Q s).
Proof.
  rewrite !Forall_forall. intros Hall c Hc.
  apply list_elem_of_filter in Hc. now apply Hall.
Qed.

(** The value of the encoder on a string that keeps a character once its
    NULs are gone and whose UTF-16 encoding is [u]. *)
Lemma encode_text_string_value s u :
  filter (fun c => c <> 0) s <> [] ->
  str_encode_utf16be (filter (fun c => c <> 0) s) = Ok u ->
  encode_text_string s =
    Ok (lit "feff" ++ str_lower (map Byte.to_N (hexlify u))).
Proof.
  intros Hne Hu. unfold encode_text_string, deprecated.
  rewrite str_replace1_nul, decide_False by assumption.
  rewrite Hu. cbn [mbind result_bind].
  rewrite bytes_decode_ascii_hexlify.
  reflexivity.
Qed.

Lemma encode_text_string_nul s :
  filter (fun c => c <> 0) s = [] -> encode_text_string s = Ok [].
Proof.
  intros He. unfold encode_text_string, deprecated.
  now rewrite str_replace1_nul, decide_True by assumption.
Qed.

Lemma filter_only_nul s :
  Forall (fun c => c = 0) s <-> filter (fun c => c <> 0) s = [].
Proof.
  induction s as [|c s IH]; [now split; [|constructor]|].
  rewrite filter_cons. destruct (decide (c <> 0)) as [Hc|Hc].
  - split; [|discriminate]. inversion 1; subst. now destruct Hc.
  - rewrite <- IH. split.
    + now inversion 1.
    + constructor; [|assumption]. destruct (N.eq_dec c 0); [assumption|].
      now destruct Hc.
Qed.

Lemma str_encode_utf16be_total s :
  no_surrogates s -> exists u, str_encode_utf16be s = Ok u.
Proof.
  induction s as [|c s IH]; intros Hns; [now exists []|].
  inversion Hns as [|? ? Hc Hns']; subst.
  destruct (IH Hns') as [u Hu].
  cbn [str_encode_utf16be]. unfold utf16be_encode_cp. rewrite Hc, Hu.
  destruct (c <? 0x10000); eexists; reflexivity.
Qed.

(** Every string but those made of NULs only and those with a surrogate
    code point is encoded, and its encoding starts with the byte order
    mark [feff]. *)
Lemma encode_text_string_bom s :
  no_surrogates s -> ~ Forall (fun c => c = 0) s ->
  exists u, str_encode_utf16be (filter (fun c => c <> 0) s) = Ok u /\
    encode_text_string s =
      Ok (lit "feff" ++ str_lower (map Byte.to_N (hexlify u))).
Proof.
  intros Hns Hnul.
  assert (Hne : filter (fun c => c <> 0) s <> [])
    by (intros He; apply Hnul; now apply filter_only_nul).
  assert (Henc : exists u, str_encode_utf16be (filter (fun c => c <> 0) s) = Ok u)
    by (apply str_encode_utf16be_total; now apply Forall_filter_keeps).
  destruct Henc as [u Hu]. exists u. split; [assumption|].
  now apply encode_text_string_value.
Qed.

(** C7, as stated, fails on a string with a surrogate code point: Python
    refuses to encode ['\ud800'] to UTF-16, so the encoder raises
    [UnicodeEncodeError] and there is no output to decode. *)
Lemma encode_text_string_lone_surrogate :
  pystr_wf [0xD800] /\ encode_text_string [0xD800] = Raise UnicodeEncodeError /\
  ~ text_string_round_trips [0xD800].
Proof.
  split; [|split].
  - repeat constructor.
  - reflexivity.
  - intros (h & raw & H & _). vm_compute in H. discriminate.
Qed.

(** C7, amended: for every string [s] without surrogate code points, the
    output of [encode_text_string] hex-decodes to bytes which, read as
    big-endian UTF-16 after the first two are dropped, are [s] without
    its NUL characters. *)
Theorem encode_text_string_round_trip s :
  pystr_wf s -> no_surrogates s -> text_string_round_trips s.
Proof.
  intros Hwf Hns. unfold text_string_round_trips.
  destruct (decide (filter (fun c => c <> 0) s = [])) as [He|Hne].
  - exists [], []. rewrite He. split; [|split]; try reflexivity.
    now apply encode_text_string_nul.
  - destruct (utf16be_round_trip (filter (fun c => c <> 0) s)) as (u & Hu & Hd).
    { now apply Forall_filter_keeps. }
    { now apply Forall_filter_keeps. }
    eexists. exists (xfe :: xff :: u). split; [|split].
    + apply (encode_text_string_value s u Hne Hu).
    + change (lit "feff" ++ str_lower (map Byte.to_N (hexlify u)))
        with (str_lower (map Byte.to_N (hexlify (xfe :: xff :: u)))).
      apply unhexlify_hexlify.
    + exact Hd.
Qed.

Lemma encode_text_string_round_trip_witness :
  text_string_round_trips [0x48; 0; 0xE9; 0x1F600; 0].
Proof.
  apply encode_text_string_round_trip.
  - repeat constructor.
  - repeat constructor.
Defined.

(** C10, as stated, fails on a string with a surrogate code point: it
    is not made of NULs only, and the encoder raises on it, so there is
    no output with a byte order mark. *)
Lemma encode_text_string_surrogate_no_output :
  pystr_wf [0xD800] /\
  ~ Forall (fun c => c = 0) [0xD800] /\
  ~ empty_or_bom_prefixed [0xD800].
Proof.
  assert (Hnul : ~ Forall (fun c => c = 0) [0xD800])
    by (intros H; inversion H; discriminate).
  split; [repeat constructor|]. split; [exact Hnul|].
  intros [_ H]. destruct (H Hnul) as [t Ht].
  vm_compute in Ht. discriminate.
Qed.

(** C10, amended: on a string that is empty or made of NUL characters
    only, [encode_text_string] returns the empty string, which holds no
    byte order mark; on every other string without surrogate code points
    it returns a text that starts with the mark [feff]; and whatever it
    returns on a string not made of NULs only starts with that mark. *)
Theorem encode_text_string_only_nul s :
  Forall (fun c => c = 0) s ->
  encode_text_string s = Ok [] /\
  (forall s',
     no_surrogates s' -> ~ Forall (fun c => c = 0) s' ->
     exists t, encode_text_string s' = Ok (lit "feff" ++ t)) /\
  (forall s' h,
     ~ Forall (fun c => c = 0) s' ->
     encode_text_string s' = Ok h ->
     exists t, h = lit "feff" ++ t).
Proof.
  intros H. split; [|split].
  - apply encode_text_string_nul. now apply filter_only_nul.
  - intros s' Hns Hnul.
    destruct (encode_text_string_bom s' Hns Hnul) as (u & _ & Hu).
    eexists. exact Hu.
  - intros s' h Hnul Hh.
    assert (Hne : filter (fun c => c <> 0) s' <> [])
      by (intros He; apply Hnul; now apply filter_only_nul).
    destruct (str_encode_utf16be (filter (fun c => c <> 0) s')) as [u|e] eqn:Hu.
    + rewrite (encode_text_string_value s' u Hne Hu) in Hh.
      injection Hh as <-. now eexists.
    + unfold encode_text_string, deprecated in Hh.
      rewrite str_replace1_nul, decide_False, Hu in Hh by assumption.
      discriminate.
Qed.

Lemma encode_text_string_only_nul_witness :
  encode_text_string [0; 0; 0] = Ok [] /\
  exists t, encode_text_string [0x68; 0; 0x1F600] = Ok (lit "feff" ++ t).
Proof.
  destruct (encode_text_string_only_nul [0; 0; 0]) as (Hempty & Hbom & _).
  - repeat constructor.
  - split; [exact Hempty|]. apply Hbom.
    + repeat constructor.
    + intros H. inversion H. discriminate.
Defined.

(** ** The generated pdfmark *)

Lemma pdfa_def_template_length : length pdfa_def_template = 957%nat.
Proof. reflexivity. Qed.

Lemma pdfa_def_template_split :
  pdfa_def_template =
    template_head ++ lit "$icc_profile" ++ template_body
      ++ lit "$icc_identifier" ++ template_tail.
Proof. vm_compute. reflexivity. Qed.

Lemma _get_pdfa_def_value {P A : Type} icc_profile icc_identifier
    (pdfmark : P) (ascii_docinfo : A) :
  _get_pdfa_def icc_profile icc_identifier pdfmark ascii_docinfo =
    Ok (template_head ++ icc_profile ++ template_body
          ++ icc_identifier ++ template_tail).
Proof. vm_compute. reflexivity. Qed.

Lemma str_encode_ascii_ok s :
  is_ascii s -> str_encode_ascii s = Ok (map byte_of_N s).
Proof.
  induction 1 as [|c s Hc _ IH]; [reflexivity|].
  cbn [str_encode_ascii]. apply N.ltb_lt in Hc. now rewrite Hc, IH.
Qed.

Lemma hexlify_is_ascii bs : is_ascii (map Byte.to_N (hexlify bs)).
Proof.
  induction bs as [|b bs IH]; [constructor|].
  rewrite hexlify_cons, map_app. apply Forall_app. split; [|exact IH].
  apply Forall_fmap. eapply Forall_impl; [apply hex_text_ascii|].
  intros d Hd. now apply N.ltb_lt.
Qed.

Lemma hexlify_lower bs :
  str_lower (map Byte.to_N (hexlify bs)) = map Byte.to_N (hexlify bs).
Proof.
  induction bs as [|b bs IH]; [reflexivity|].
  rewrite hexlify_cons, map_app. unfold str_lower in *. rewrite map_app, IH.
  f_equal. destruct b; reflexivity.
Qed.

Lemma text_mode_app nl a b :
  text_mode nl (a ++ b) = text_mode nl a ++ text_mode nl b.
Proof. unfold text_mode, str_replace1. apply flat_map_app. Qed.

Lemma text_mode_no_line_feed nl s :
  Forall (fun c => c <> 10) s -> text_mode nl s = s.
Proof.
  unfold text_mode, str_replace1.
  induction 1 as [|c s Hc _ IH]; [reflexivity|].
  cbn [flat_map]. rewrite IH.
  now destruct (N.eqb_spec c 10).
Qed.

Lemma text_mode_is_ascii nl s : is_ascii s -> is_ascii (text_mode nl s).
Proof.
  unfold text_mode, str_replace1, is_ascii.
  induction 1 as [|c s Hc _ IH]; [constructor|].
  cbn [flat_map]. apply Forall_app. split; [|exact IH].
  destruct (c =? 10).
  - destruct nl; repeat constructor.
  - now repeat constructor.
Qed.

Lemma text_mode_hexlify nl bs :
  text_mode nl (map Byte.to_N (hexlify bs)) = map Byte.to_N (hexlify bs).
Proof.
  apply text_mode_no_line_feed, Forall_fmap.
  eapply Forall_impl; [apply hexlify_hex_char|].
  intros d Hd. apply hex_char_range in Hd. unfold compose. lia.
Qed.

Lemma template_is_ascii :
  is_ascii template_head /\ is_ascii template_body /\ is_ascii template_tail.
Proof.
  unfold is_ascii. repeat split; apply (bool_decide_unpack _); vm_compute; reflexivity.
Qed.

Lemma pdfmark_text_is_ascii pb : is_ascii (pdfmark_text pb).
Proof.
  destruct template_is_ascii as (Hh & Hb & Ht).
  unfold pdfmark_text, is_ascii. rewrite !Forall_app. repeat split; try assumption.
  - repeat constructor.
  - apply hexlify_is_ascii.
  - repeat constructor.
  - repeat constructor.
Qed.

Lemma map_byte_of_to_N (bs : bytes) : map byte_of_N (map Byte.to_N bs) = bs.
Proof.
  induction bs as [|b bs IH]; [reflexivity|].
  cbn [map]. now rewrite byte_of_to_N, IH.
Qed.

(** The written file around the hex literal. *)
Lemma pdfmark_file_split nl pb :
  pdfmark_file nl pb =
    map byte_of_N (text_mode nl template_head ++ lit "<")
      ++ hexlify pb
      ++ ">"%byte :: map byte_of_N (text_mode nl template_body)
      ++ map byte_of_N (lit "sRGB" ++ text_mode nl template_tail).
Proof.
  unfold pdfmark_file, pdfmark_text.
  rewrite !text_mode_app, text_mode_hexlify.
  change (text_mode nl (lit "<")) with (lit "<").
  change (text_mode nl (lit ">")) with (lit ">").
  change (text_mode nl (lit "sRGB")) with (lit "sRGB").
  rewrite !map_app, map_byte_of_to_N, <- !app_assoc.
  reflexivity.
Qed.

Lemma after_marker_head nl rest :
  after_marker (blit "/ICCProfile <")
    (map byte_of_N (text_mode nl template_head ++ lit "<") ++ rest) = Some rest.
Proof. destruct nl; vm_compute; reflexivity. Qed.

Lemma until_app d pre rest :
  Forall (fun b => Byte.eqb b d = false) pre ->
  until d (pre ++ d :: rest) = Some pre.
Proof.
  induction 1 as [|b pre Hb _ IH]; cbn [app until].
  - now rewrite (Byte.byte_dec_lb (x:=d) eq_refl).
  - now rewrite Hb, IH.
Qed.

Lemma until_hexlify bs rest :
  until ">"%byte (hexlify bs ++ ">"%byte :: rest) = Some (hexlify bs).
Proof.
  apply until_app. eapply Forall_impl; [apply hexlify_hex_char|].
  intros d Hd. apply hex_char_range in Hd.
  destruct (Byte.eqb d ">"%byte) eqn:E; [|reflexivity].
  apply Byte.byte_dec_bl in E. subst d.
  change (Byte.to_N ">"%byte) with 62 in Hd. lia.
Qed.

Lemma icc_profile_literal_pdfmark nl pb :
  icc_profile_literal (pdfmark_file nl pb) = Some (hexlify pb).
Proof.
  unfold icc_profile_literal.
  rewrite pdfmark_file_split, after_marker_head. cbn [mbind option_bind].
  apply until_hexlify.
Qed.

Lemma pdfmark_file_head nl pb : blit "%!" `prefix_of` pdfmark_file nl pb.
Proof.
  rewrite pdfmark_file_split.
  apply prefix_app_r.
  destruct nl; eexists; vm_compute; reflexivity.
Qed.

Lemma strip_prefix_app m bs r : strip_prefix m bs = Some r -> bs = m ++ r.
Proof.
  revert bs. induction m as [|x m IH]; intros bs H.
  - destruct bs; cbn in H; now injection H as <-.
  - destruct bs as [|y bs]; cbn in H; [discriminate|].
    destruct (Byte.eqb x y) eqn:E; [|discriminate].
    apply Byte.byte_dec_bl in E. subst y. cbn. f_equal. now apply IH.
Qed.

Lemma after_marker_contains m bs r : after_marker m bs = Some r -> contains m bs.
Proof.
  induction bs as [|y bs IH]; cbn [after_marker];
    destruct (strip_prefix m _) as [r'|] eqn:E; intros H.
  - exists [], r'. exact (strip_prefix_app _ _ _ E).
  - discriminate.
  - exists [], r'. exact (strip_prefix_app _ _ _ E).
  - destruct (IH H) as (a & b & ->). now exists (y :: a), b.
Qed.

Lemma contains_app m a b c : contains m b -> contains m (a ++ b ++ c).
Proof.
  intros (x & y & ->). exists (a ++ x), (y ++ c).
  now rewrite <- !app_assoc.
Qed.

Lemma pdfmark_file_output_intent nl pb :
  contains (blit "OutputIntent") (pdfmark_file nl pb).
Proof.
  rewrite pdfmark_file_split.
  change (?a ++ ?h ++ ">"%byte :: ?b ++ ?c)
    with (a ++ h ++ [">"%byte] ++ b ++ c).
  rewrite (app_assoc _ (hexlify pb)), (app_assoc _ [">"%byte]).
  apply contains_app.
  destruct nl; eapply after_marker_contains; vm_compute; reflexivity.
Qed.

Lemma pdfmark_file_is_ascii nl pb :
  str_encode_ascii (text_mode nl (pdfmark_text pb)) = Ok (pdfmark_file nl pb) /\
  Forall (fun b => Byte.to_N b < 128) (pdfmark_file nl pb).
Proof.
  pose proof (text_mode_is_ascii nl _ (pdfmark_text_is_ascii pb)) as H.
  split; [now apply str_encode_ascii_ok|].
  unfold pdfmark_file. apply Forall_fmap. eapply Forall_impl; [exact H|].
  intros c Hc. unfold compose. cbn beta in Hc.
  rewrite to_N_byte_of_N; lia.
Qed.

(** ** [_encode_ascii] *)

Lemma trans_lookup c :
  trans !! c = if decide (stripped c) then Some [] else None.
Proof.
  unfold trans, stripped.
  change (N_of_ascii "(") with 40. change (N_of_ascii ")") with 41.
  change (N_of_ascii "\") with 92.
  rewrite !lookup_insert, lookup_empty.
  repeat case_decide; try reflexivity; exfalso; intuition congruence.
Qed.

Lemma str_translate_trans s :
  str_translate trans s = filter (fun c => ~ stripped c) s.
Proof.
  induction s as [|c s IH]; [reflexivity|].
  unfold str_translate in *. cbn [flat_map]. rewrite IH, trans_lookup, filter_cons.
  destruct (decide (stripped c)) as [Hc|Hc].
  - now rewrite decide_False by (intros Hn; now apply Hn).
  - now rewrite decide_True by assumption.
Qed.

Lemma bytes_decode_utf8_ascii bs :
  Forall (fun b => Byte.to_N b < 128) bs ->
  bytes_decode_utf8 bs = Ok (map Byte.to_N bs).
Proof.
  induction 1 as [|b bs Hb _ IH]; [reflexivity|].
  cbn [bytes_decode_utf8 map]. apply N.ltb_lt in Hb. now rewrite Hb, IH.
Qed.

(** The stripper as a function: the four characters of the table are
    dropped, and of the others those outside ASCII become question
    marks. *)
Lemma _encode_ascii_value s :
  _encode_ascii s =
    Ok (map (fun c => if c <? 128 then c else 63)
          (filter (fun c => ~ stripped c) s)).
Proof.
  unfold _encode_ascii. rewrite str_translate_trans.
  generalize (filter (fun c => ~ stripped c) s). intros l.
  rewrite bytes_decode_utf8_ascii.
  - f_equal. unfold str_encode_ascii_replace. rewrite map_map.
    apply map_ext. intros c. destruct (N.ltb_spec c 128).
    + apply to_N_byte_of_N. lia.
    + reflexivity.
  - unfold str_encode_ascii_replace. apply Forall_fmap, Forall_forall.
    intros c _. cbn. destruct (N.ltb_spec c 128).
    + rewrite to_N_byte_of_N by lia. assumption.
    + reflexivity.
Qed.

(** C8, as stated, fails on a control character: the escape character
    [U+001B] is ASCII, is not in the table, and goes through. *)
Lemma _encode_ascii_control_character :
  _encode_ascii [0x1B] = Ok [0x1B] /\ ~ ascii_stripper_printable [0x1B].
Proof.
  split; [reflexivity|].
  intros (out & Hout & Hp & _).
  rewrite _encode_ascii_value in Hout. vm_compute in Hout.
  injection Hout as <-. inversion Hp as [|? ? [Hlo _] _]; subst.
  now apply Hlo.
Qed.

(** C8, amended: every character of the output of [_encode_ascii] is an
    ASCII character other than NUL (a code point from 1 to 127, control
    characters included), and none is a parenthesis or a backslash. *)
Theorem _encode_ascii_output s :
  exists out, _encode_ascii s = Ok out /\
    Forall (fun c => 0 < c < 128) out /\ Forall no_postscript_delimiter out.
Proof.
  eexists. split; [apply _encode_ascii_value|].
  split; apply Forall_fmap, Forall_forall; intros c Hc;
    apply list_elem_of_filter in Hc; destruct Hc as [Hc _];
    unfold stripped in Hc; unfold no_postscript_delimiter, compose;
    change (N_of_ascii "(") with 40; change (N_of_ascii ")") with 41;
    change (N_of_ascii "\") with 92;
    destruct (N.ltb_spec c 128); lia.
Qed.

(** ** [generate_pdfa_ps] *)

Section GeneratorProperties.

Variable SRGB_ICC_PROFILE : pystr.
Variable os_fsencode : pystr -> result bytes.
Variable os_linesep : newline.
Variable writable : pystr -> bool.

Local Abbreviation generate :=
  (generate_pdfa_ps SRGB_ICC_PROFILE os_fsencode os_linesep writable).

Lemma generate_pdfa_ps_text_sRGB {P : Type} (pdfmark : P) pb :
  os_fsencode SRGB_ICC_PROFILE = Ok pb ->
  generate_pdfa_ps_text SRGB_ICC_PROFILE os_fsencode pdfmark (lit "sRGB")
    = Ok (pdfmark_text pb).
Proof.
  intros Hpb. unfold generate_pdfa_ps_text.
  rewrite decide_True by reflexivity. cbn [mbind result_bind].
  rewrite Hpb. cbn [mbind result_bind].
  rewrite bytes_decode_ascii_hexlify. cbn [mbind result_bind].
  apply _get_pdfa_def_value.
Qed.

Lemma generate_pdfa_ps_text_legacy {P1 P2 : Type} (pdfmark1 : P1) (pdfmark2 : P2) icc :
  generate_pdfa_ps_text SRGB_ICC_PROFILE os_fsencode pdfmark1 icc
    = generate_pdfa_ps_text SRGB_ICC_PROFILE os_fsencode pdfmark2 icc.
Proof.
  unfold generate_pdfa_ps_text.
  case (decide (icc = lit "sRGB")); intros _; cbn [mbind result_bind];
    [|reflexivity].
  case (os_fsencode SRGB_ICC_PROFILE); [intros pb|intros e];
    cbn [mbind result_bind]; [|reflexivity].
  case (bytes_decode_ascii (hexlify pb)); [intros h|intros e];
    cbn [mbind result_bind]; [|reflexivity].
  rewrite !_get_pdfa_def_value. reflexivity.
Qed.

(** The whole effect of a call with [sRGB] on a writable path. *)
Lemma generate_pdfa_ps_sRGB {P A : Type} (target : pystr) (pdfmark : P)
    (ascii_docinfo : A) (fs : gmap pystr bytes) (pb : bytes) :
  os_fsencode SRGB_ICC_PROFILE = Ok pb ->
  writable target = true ->
  generate target pdfmark (lit "sRGB") ascii_docinfo fs
    = (Ok (), <[target := pdfmark_file os_linesep pb]> fs).
Proof.
  intros Hpb Hw. unfold generate_pdfa_ps.
  rewrite (generate_pdfa_ps_text_sRGB _ _ Hpb).
  unfold Path_write_text. rewrite Hw.
  fold (text_mode os_linesep (pdfmark_text pb)).
  rewrite (proj1 (pdfmark_file_is_ascii _ _)).
  now rewrite insert_insert_eq.
Qed.

(** C4: with an identifier other than [sRGB] the generator raises
    [NotImplementedError] and the files are what they were: nothing is
    written at the target path, not even an empty file. *)
Theorem generate_pdfa_ps_not_implemented {P A : Type} (target : pystr)
    (pdfmark : P) (icc : pystr) (ascii_docinfo : A) (fs : gmap pystr bytes) :
  icc <> lit "sRGB" ->
  generate target pdfmark icc ascii_docinfo fs
    = (Raise (NotImplementedError (lit "Only supporting sRGB")), fs).
Proof.
  intros Hicc. unfold generate_pdfa_ps, generate_pdfa_ps_text.
  now rewrite decide_False by assumption.
Qed.

(** C5: in the file generated for [sRGB], the hex literal that follows
    [/ICCProfile] hex-decodes to the bytes that [os.fsencode] gives for
    the path of the bundled profile. *)
Theorem generate_pdfa_ps_icc_profile_path {P A : Type} (target : pystr)
    (pdfmark : P) (ascii_docinfo : A) (fs : gmap pystr bytes) (pb : bytes) :
  os_fsencode SRGB_ICC_PROFILE = Ok pb ->
  writable target = true ->
  exists content hex,
    generate target pdfmark (lit "sRGB") ascii_docinfo fs
      = (Ok (), <[target := content]> fs) /\
    icc_profile_literal content = Some hex /\
    unhexlify (map Byte.to_N hex) = Ok pb.
Proof.
  intros Hpb Hw.
  exists (pdfmark_file os_linesep pb), (hexlify pb).
  split; [now apply generate_pdfa_ps_sRGB|].
  split; [apply icc_profile_literal_pdfmark|].
  rewrite <- hexlify_lower. apply unhexlify_hexlify.
Qed.

(** C6: for [sRGB] the generator writes, at any writable path, a file
    that begins with [%!], contains [OutputIntent], and holds ASCII
    bytes only. *)
Theorem generate_pdfa_ps_writes_ascii_pdfmark {P A : Type} (target : pystr)
    (pdfmark : P) (ascii_docinfo : A) (fs : gmap pystr bytes) (pb : bytes) :
  os_fsencode SRGB_ICC_PROFILE = Ok pb ->
  writable target = true ->
  exists content,
    generate target pdfmark (lit "sRGB") ascii_docinfo fs
      = (Ok (), <[target := content]> fs) /\
    blit "%!" `prefix_of` content /\
    contains (blit "OutputIntent") content /\
    Forall (fun b => Byte.to_N b < 128) content.
Proof.
  intros Hpb Hw. exists (pdfmark_file os_linesep pb).
  split; [now apply generate_pdfa_ps_sRGB|].
  split; [apply pdfmark_file_head|].
  split; [apply pdfmark_file_output_intent|].
  apply pdfmark_file_is_ascii.
Qed.

(** C9: the legacy parameters [pdfmark] and [ascii_docinfo] change
    neither the outcome of [generate_pdfa_ps] nor the files it leaves,
    and [_get_pdfa_def] returns the same text whatever they are. *)
Theorem legacy_parameters_ignored {P1 P2 A1 A2 : Type}
    (target icc : pystr) (fs : gmap pystr bytes)
    (pdfmark1 : P1) (pdfmark2 : P2)
    (ascii_docinfo1 : A1) (ascii_docinfo2 : A2) :
  generate target pdfmark1 icc ascii_docinfo1 fs
    = generate target pdfmark2 icc ascii_docinfo2 fs /\
  forall icc_profile icc_identifier,
    _get_pdfa_def icc_profile icc_identifier pdfmark1 ascii_docinfo1
      = _get_pdfa_def icc_profile icc_identifier pdfmark2 ascii_docinfo2.
Proof.
  split.
  - unfold generate_pdfa_ps.
    now rewrite (generate_pdfa_ps_text_legacy pdfmark1 pdfmark2).
  - intros. now rewrite !_get_pdfa_def_value.
Qed.

End GeneratorProperties.

Lemma generate_pdfa_ps_not_implemented_witness :
  generate_pdfa_ps site_packages_profile fsencode_utf8 LF (fun _ => true)
    (lit "pdfa.ps") (@None (gmap pystr pystr)) (lit "AdobeRGB") (@None bool) ∅
  = (Raise (NotImplementedError (lit "Only supporting sRGB")), ∅).
Proof.
  apply generate_pdfa_ps_not_implemented. vm_compute. discriminate.
Defined.

Lemma generate_pdfa_ps_icc_profile_path_witness :
  exists content hex,
    generate_pdfa_ps site_packages_profile fsencode_utf8 LF (fun _ => true)
      (lit "pdfa.ps") (@None (gmap pystr pystr)) (lit "sRGB") (@None bool) ∅
      = (Ok (), <[lit "pdfa.ps" := content]> ∅) /\
    icc_profile_literal content = Some hex /\
    unhexlify (map Byte.to_N hex) = Ok (blit "/usr/lib/python3/site-packages/ocrmypdf/data/sRGB.icc").
Proof.
  apply generate_pdfa_ps_icc_profile_path.
  - vm_compute. reflexivity.
  - reflexivity.
Defined.

Lemma generate_pdfa_ps_writes_ascii_pdfmark_witness :
  exists content,
    generate_pdfa_ps site_packages_profile fsencode_utf8 CRLF (fun _ => true)
      (lit "pdfa.ps") (@None (gmap pystr pystr)) (lit "sRGB") (@None bool) ∅
      = (Ok (), <[lit "pdfa.ps" := content]> ∅) /\
    blit "%!" `prefix_of` content /\
    contains (blit "OutputIntent") content /\
    Forall (fun b => Byte.to_N b < 128) content.
Proof.
  apply (generate_pdfa_ps_writes_ascii_pdfmark site_packages_profile fsencode_utf8
           CRLF (fun _ => true) (lit "pdfa.ps") None None ∅
           (blit "/usr/lib/python3/site-packages/ocrmypdf/data/sRGB.icc")).
  - vm_compute. reflexivity.
  - reflexivity.
Defined.

(** ** [file_claims_pdfa] *)

Lemma valid_part_conforms_elem code :
  code ∈ valid_part_conforms <->
  code ∈ [lit "1A"; lit "1B"; lit "2A"; lit "2B"; lit "2U"; lit "3A"; lit "3B"; lit "3U"].
Proof.
  unfold valid_part_conforms.
  rewrite !elem_of_union, !elem_of_singleton, !elem_of_cons, elem_of_nil.
  tauto.
Qed.

Section CheckerProperties.

Variable pikepdf_open : pystr -> result Pdf.

(** The checker returns whenever pikepdf gives the metadata. *)
Lemma file_claims_pdfa_returns (filename : pystr) (pdf : Pdf)
    (pdfmeta : PdfMetadata) :
  pikepdf_open filename = Ok pdf ->
  open_metadata pdf = Ok pdfmeta ->
  exists d, file_claims_pdfa pikepdf_open filename = Ok d.
Proof.
  intros Hpdf Hmeta. unfold file_claims_pdfa.
  rewrite Hpdf. cbn [mbind result_bind]. rewrite Hmeta.
  cbn [mbind result_bind].
  destruct (pdfa_status pdfmeta) as [[|c status]|]; eexists; reflexivity.
Qed.

(** C1, amended: the conformance field of every result is [PDF/A-]
    followed by the status read from the file when that status is not
    empty, whether it is a recognized code or not, and the fixed message
    when the status is absent or empty. *)
Theorem file_claims_pdfa_conformance (filename : pystr) (d : gmap pystr pyval) :
  file_claims_pdfa pikepdf_open filename = Ok d ->
  exists pdf pdfmeta,
    pikepdf_open filename = Ok pdf /\
    open_metadata pdf = Ok pdfmeta /\
    conformance_of d = Some (claimed_conformance (pdfa_status pdfmeta)).
Proof.
  unfold file_claims_pdfa. intros H.
  destruct (pikepdf_open filename) as [pdf|e]; [|discriminate].
  cbn [mbind result_bind] in H.
  destruct (open_metadata pdf) as [pdfmeta|e] eqn:Hmeta; [|discriminate].
  cbn [mbind result_bind] in H.
  exists pdf, pdfmeta. split; [reflexivity|]. split; [assumption|].
  unfold conformance_of, claimed_conformance.
  destruct (pdfa_status pdfmeta) as [[|c status]|];
    injection H as <-; now rewrite lookup_insert_eq.
Qed.

(** C2: a status among the eight recognized codes gives [pass] true,
    [output] ['pdfa'] and [conformance] [PDF/A-] followed by the
    status, and nothing else. *)
Theorem file_claims_pdfa_recognized (filename : pystr) (pdf : Pdf)
    (pdfmeta : PdfMetadata) (status : pystr) :
  pikepdf_open filename = Ok pdf ->
  open_metadata pdf = Ok pdfmeta ->
  pdfa_status pdfmeta = Some status ->
  status ∈ valid_part_conforms ->
  file_claims_pdfa pikepdf_open filename =
    Ok (<[lit "conformance" := VStr (lit "PDF/A-" ++ status)]>
          (<[lit "output" := VStr (lit "pdfa")]>
             (<[lit "pass" := VBool true]> ∅))).
Proof.
  intros Hpdf Hmeta Hst Hin. unfold file_claims_pdfa.
  rewrite Hpdf. cbn [mbind result_bind]. rewrite Hmeta.
  cbn [mbind result_bind]. rewrite Hst.
  destruct status as [|c status].
  - apply valid_part_conforms_elem in Hin.
    rewrite !elem_of_cons, elem_of_nil in Hin.
    exfalso. intuition discriminate.
  - now rewrite decide_True by assumption.
Qed.

(** C3: an absent or empty status gives [pass] false, [output] ['pdf']
    and the fixed message, and nothing else. *)
Theorem file_claims_pdfa_no_metadata (filename : pystr) (pdf : Pdf)
    (pdfmeta : PdfMetadata) :
  pikepdf_open filename = Ok pdf ->
  open_metadata pdf = Ok pdfmeta ->
  pdfa_status pdfmeta = None \/ pdfa_status pdfmeta = Some [] ->
  file_claims_pdfa pikepdf_open filename =
    Ok (<[lit "conformance" := VStr (lit "No PDF/A metadata in XMP")]>
          (<[lit "output" := VStr (lit "pdf")]>
             (<[lit "pass" := VBool false]> ∅))).
Proof.
  intros Hpdf Hmeta Hst. unfold file_claims_pdfa.
  rewrite Hpdf. cbn [mbind result_bind]. rewrite Hmeta.
  cbn [mbind result_bind]. now destruct Hst as [-> | ->].
Qed.

End CheckerProperties.

(** C1, as stated, fails on a status outside the eight codes: for a file
    that claims PDF/A-4F the conformance field is [PDF/A-4F]. *)
Lemma file_claims_pdfa_unrecognized_status :
  exists d,
    file_claims_pdfa (fun _ => Ok (pdf_with_status (Some (lit "4F")))) (lit "in.pdf")
      = Ok d /\
    conformance_of d = Some (lit "PDF/A-4F") /\
    ~ recognized_conformance (lit "PDF/A-4F").
Proof.
  eexists. split; [reflexivity|]. split; [reflexivity|].
  intros [H|(code & Hin & H)]; [discriminate|].
  injection H as <-. apply valid_part_conforms_elem in Hin.
  rewrite !elem_of_cons, elem_of_nil in Hin. intuition discriminate.
Qed.

Lemma file_claims_pdfa_conformance_witness :
  exists pdf pdfmeta,
    Ok (pdf_with_status (Some (lit "4F"))) = Ok pdf /\
    open_metadata pdf = Ok pdfmeta /\
    conformance_of (<[lit "conformance" := VStr (lit "PDF/A-4F")]> ∅)
      = Some (claimed_conformance (pdfa_status pdfmeta)).
Proof.
  apply (file_claims_pdfa_conformance
           (fun _ => Ok (pdf_with_status (Some (lit "4F")))) (lit "in.pdf")).
  reflexivity.
Defined.

Lemma file_claims_pdfa_recognized_witness :
  file_claims_pdfa (fun _ => Ok (pdf_with_status (Some (lit "2B")))) (lit "in.pdf") =
    Ok (<[lit "conformance" := VStr (lit "PDF/A-2B")]>
          (<[lit "output" := VStr (lit "pdfa")]>
             (<[lit "pass" := VBool true]> ∅))).
Proof.
  apply (file_claims_pdfa_recognized _ _ (pdf_with_status (Some (lit "2B")))
           {| pdfa_status := Some (lit "2B") |} (lit "2B")).
  - reflexivity.
  - reflexivity.
  - reflexivity.
  - apply valid_part_conforms_elem. rewrite !elem_of_cons. tauto.
Defined.

Lemma file_claims_pdfa_no_metadata_witness :
  file_claims_pdfa (fun _ => Ok (pdf_with_status None)) (lit "in.pdf") =
    Ok (<[lit "conformance" := VStr (lit "No PDF/A metadata in XMP")]>
          (<[lit "output" := VStr (lit "pdf")]>
             (<[lit "pass" := VBool false]> ∅))).
Proof.
  apply (file_claims_pdfa_no_metadata _ _ (pdf_with_status None)
           {| pdfa_status := None |}).
  - reflexivity.
  - reflexivity.
  - left. reflexivity.
Defined.

(** * Further properties *)

(** ** [encode_text_string]: errors, alphabet, length, injectivity *)

Lemma encode_text_string_cases s :
  (filter (fun c => c <> 0) s = [] /\ encode_text_string s = Ok []) \/
  (filter (fun c => c <> 0) s <> [] /\
   exists u, str_encode_utf16be (filter (fun c => c <> 0) s) = Ok u /\
     encode_text_string s = Ok (lit "feff" ++ map Byte.to_N (hexlify u))) \/
  (filter (fun c => c <> 0) s <> [] /\
   exists e, str_encode_utf16be (filter (fun c => c <> 0) s) = Raise e /\
     encode_text_string s = Raise e).
Proof.
  destruct (decide (filter (fun c => c <> 0) s = [])) as [He|Hne].
  - left. split; [assumption|]. now apply encode_text_string_nul.
  - right.
    destruct (str_encode_utf16be (filter (fun c => c <> 0) s)) as [u|e] eqn:Hu.
    + left. split; [assumption|]. exists u. split; [reflexivity|].
      rewrite <- hexlify_lower. now apply encode_text_string_value.
    + right. split; [assumption|]. exists e. split; [reflexivity|].
      unfold encode_text_string, deprecated.
      now rewrite str_replace1_nul, decide_False, Hu by assumption.
Qed.

Lemma str_encode_utf16be_raise s e :
  str_encode_utf16be s = Raise e -> e = UnicodeEncodeError /\ has_surrogate s.
Proof.
  unfold has_surrogate.
  induction s as [|c s IH]; [discriminate|].
  cbn [str_encode_utf16be]. unfold utf16be_encode_cp.
  destruct (is_surrogate c) eqn:Hc.
  - cbn [mbind result_bind]. intros [= <-]. split; [reflexivity|].
    now apply Exists_cons_hd.
  - destruct (c <? 0x10000); cbn [mbind result_bind];
      (destruct (str_encode_utf16be s) as [u|e'];
       cbn [mbind result_bind]; [discriminate|]);
      intros [= <-]; destruct (IH eq_refl) as [-> Hs];
      (split; [reflexivity|now apply Exists_cons_tl]).
Qed.

Lemma str_encode_utf16be_ok s u :
  str_encode_utf16be s = Ok u ->
  no_surrogates s /\ length u = (2 * utf16_units s)%nat.
Proof.
  unfold no_surrogates, utf16_units.
  revert u. induction s as [|c s IH]; intros u.
  - intros [= <-]. split; [constructor|reflexivity].
  - cbn [str_encode_utf16be sum_list_with]. unfold utf16be_encode_cp.
    destruct (is_surrogate c) eqn:Hc; [discriminate|].
    destruct (str_encode_utf16be s) as [r|e] eqn:Hr.
    + destruct (IH r eq_refl) as [Hns Hlen].
      destruct (c <? 0x10000); cbn [mbind result_bind]; intros [= <-];
        (split; [now constructor|]); cbn [length]; rewrite Hlen; lia.
    + destruct (c <? 0x10000); discriminate.
Qed.

Lemma has_surrogate_filter s :
  has_surrogate (filter (fun c => c <> 0) s) <-> has_surrogate s.
Proof.
  unfold has_surrogate. rewrite !Exists_exists. split.
  - intros (c & Hin & Hc). apply list_elem_of_filter in Hin. exists c. tauto.
  - intros (c & Hin & Hc). exists c. split; [|assumption].
    apply list_elem_of_filter. split; [|assumption].
    intros ->. discriminate.
Qed.

Lemma no_surrogates_not_has s : no_surrogates s -> ~ has_surrogate s.
Proof.
  unfold no_surrogates, has_surrogate. rewrite Forall_forall, Exists_exists.
  intros H (c & Hin & Hc). rewrite (H c Hin) in Hc. discriminate.
Qed.

Lemma length_hexlify bs : length (hexlify bs) = (2 * length bs)%nat.
Proof.
  induction bs as [|b bs IH]; [reflexivity|].
  rewrite hexlify_cons, length_app, IH. cbn. lia.
Qed.

Lemma lower_hex_hexlify bs : Forall lower_hex (map Byte.to_N (hexlify bs)).
Proof.
  apply Forall_fmap. eapply Forall_impl; [apply hexlify_hex_char|].
  intros d Hd. now apply hex_char_range.
Qed.

(** X1: [encode_text_string] raises exactly on the strings that hold a
    surrogate code point, and what it raises is [UnicodeEncodeError]. *)
Theorem encode_text_string_raises s :
  (has_surrogate s <-> encode_text_string s = Raise UnicodeEncodeError) /\
  (forall e, encode_text_string s = Raise e -> e = UnicodeEncodeError).
Proof.
  destruct (encode_text_string_cases s)
    as [[He ->]|[(Hne & u & Hu & ->)|(Hne & e & Hu & ->)]].
  - split; [|discriminate]. split; [|discriminate].
    intros Hs. apply has_surrogate_filter in Hs. rewrite He in Hs.
    now apply Exists_nil in Hs.
  - split; [|discriminate]. split; [|discriminate].
    intros Hs. apply has_surrogate_filter in Hs.
    apply str_encode_utf16be_ok in Hu. destruct Hu as [Hns _].
    now apply no_surrogates_not_has in Hns.
  - destruct (str_encode_utf16be_raise _ _ Hu) as [-> Hs].
    split; [|now intros e [= <-]]. split; [reflexivity|].
    intros _. now apply has_surrogate_filter.
Qed.

(** X2: whatever [encode_text_string] returns is written with the digits
    and the lowercase letters [a] to [f] only, and has four characters
    for the byte order mark and four for each UTF-16 unit of the string
    without its NULs, or none at all when nothing is left. *)
Theorem encode_text_string_shape s h :
  encode_text_string s = Ok h ->
  Forall lower_hex h /\
  length h =
    if decide (filter (fun c => c <> 0) s = []) then 0%nat
    else (4 * (1 + utf16_units (filter (fun c => c <> 0%N) s)))%nat.
Proof.
  destruct (encode_text_string_cases s)
    as [[He ->]|[(Hne & u & Hu & ->)|(Hne & e & Hu & ->)]]; [| |discriminate].
  - intros [= <-]. rewrite decide_True by assumption. split; [constructor|reflexivity].
  - intros Heq.
    assert (h = lit "feff" ++ map Byte.to_N (hexlify u)) as -> by congruence.
    rewrite decide_False by assumption. split.
    + apply Forall_app. split; [|apply lower_hex_hexlify].
      unfold lower_hex. repeat constructor; cbn; lia.
    + apply str_encode_utf16be_ok in Hu. destruct Hu as [_ Hlen].
      rewrite length_app, length_map, length_hexlify, Hlen. cbn. lia.
Qed.

Lemma encode_text_string_shape_witness :
  Forall lower_hex (lit "feff0041d83dde00") /\
  length (lit "feff0041d83dde00") = 16%nat.
Proof.
  apply (encode_text_string_shape [0x41; 0; 0x1F600]). reflexivity.
Defined.

(** X3: two strings without surrogate code points have the same encoding
    exactly when they are the same once their NULs are removed: NULs do
    not show in the output, and nothing else is lost. *)
Theorem encode_text_string_injective s1 s2 :
  pystr_wf s1 -> no_surrogates s1 -> pystr_wf s2 -> no_surrogates s2 ->
  (encode_text_string s1 = encode_text_string s2 <->
   filter (fun c => c <> 0) s1 = filter (fun c => c <> 0) s2).
Proof.
  intros Hwf1 Hns1 Hwf2 Hns2. split.
  - intros Heq.
    destruct (utf16be_round_trip (filter (fun c => c <> 0) s1))
      as (u1 & Hu1 & Hd1); [now apply Forall_filter_keeps..|].
    destruct (utf16be_round_trip (filter (fun c => c <> 0) s2))
      as (u2 & Hu2 & Hd2); [now apply Forall_filter_keeps..|].
    destruct (decide (filter (fun c => c <> 0) s1 = [])) as [He1|Hne1];
      destruct (decide (filter (fun c => c <> 0) s2 = [])) as [He2|Hne2].
    + congruence.
    + rewrite (encode_text_string_nul _ He1),
        (encode_text_string_value _ _ Hne2 Hu2) in Heq. discriminate.
    + rewrite (encode_text_string_nul _ He2),
        (encode_text_string_value _ _ Hne1 Hu1) in Heq. discriminate.
    + rewrite (encode_text_string_value _ _ Hne1 Hu1),
        (encode_text_string_value _ _ Hne2 Hu2) in Heq.
      injection Heq as Heq.
      assert (Hu : Ok u1 = Ok u2 :> result bytes)
        by (rewrite <- (unhexlify_hexlify u1), <- (unhexlify_hexlify u2); now f_equal).
      injection Hu as ->. congruence.
  - intros Heq. unfold encode_text_string, deprecated.
    now rewrite !str_replace1_nul, Heq.
Qed.

Lemma encode_text_string_injective_witness :
  encode_text_string [0x41; 0; 0x42] = encode_text_string [0; 0x41; 0x42; 0] <->
  filter (fun c => c <> 0) [0x41; 0; 0x42] = filter (fun c => c <> 0) [0; 0x41; 0x42; 0].
Proof.
  apply encode_text_string_injective; repeat constructor.
Defined.

(** ** [_encode_ascii]: fixed points, idempotence, concatenation, length *)

Lemma safe_ascii_kept c : safe_ascii c -> ~ stripped c /\ (c <? 128) = true.
Proof.
  unfold safe_ascii, no_postscript_delimiter, stripped.
  change (N_of_ascii "(") with 40. change (N_of_ascii ")") with 41.
  change (N_of_ascii "\") with 92.
  intros [Hr Hd]. split; [lia|]. apply N.ltb_lt. lia.
Qed.

Lemma safe_ascii_unchanged l :
  Forall safe_ascii l ->
  map (fun c => if c <? 128 then c else 63) (filter (fun c => ~ stripped c) l) = l.
Proof.
  induction 1 as [|c l Hc _ IH]; [reflexivity|].
  apply safe_ascii_kept in Hc. destruct Hc as [Hk Hlt].
  rewrite filter_cons, decide_True by assumption.
  cbn [map]. now rewrite Hlt, IH.
Qed.

Lemma _encode_ascii_safe s :
  Forall safe_ascii
    (map (fun c => if c <? 128 then c else 63) (filter (fun c => ~ stripped c) s)).
Proof.
  apply Forall_fmap, Forall_forall. intros c Hc.
  apply list_elem_of_filter in Hc. destruct Hc as [Hc _].
  unfold stripped in Hc. unfold safe_ascii, no_postscript_delimiter, compose.
  change (N_of_ascii "(") with 40. change (N_of_ascii ")") with 41.
  change (N_of_ascii "\") with 92.
  destruct (N.ltb_spec c 128); lia.
Qed.

(** X4: a string of ASCII characters among which there is no NUL, no
    parenthesis and no backslash goes through [_encode_ascii] unchanged. *)
Theorem _encode_ascii_fixed_point s :
  Forall safe_ascii s -> _encode_ascii s = Ok s.
Proof.
  intros H. rewrite _encode_ascii_value. f_equal. now apply safe_ascii_unchanged.
Qed.

Lemma _encode_ascii_fixed_point_witness :
  _encode_ascii (lit "sRGB IEC61966-2.1") = Ok (lit "sRGB IEC61966-2.1").
Proof.
  apply _encode_ascii_fixed_point.
  unfold safe_ascii, no_postscript_delimiter.
  repeat constructor; cbn; lia || discriminate.
Defined.

(** X5: [_encode_ascii] is idempotent: applied to its own output it
    returns that output. *)
Theorem _encode_ascii_idempotent s :
  exists out, _encode_ascii s = Ok out /\ _encode_ascii out = Ok out.
Proof.
  eexists. split; [apply _encode_ascii_value|].
  rewrite _encode_ascii_value. f_equal.
  apply safe_ascii_unchanged, _encode_ascii_safe.
Qed.

(** X6: [_encode_ascii] works character by character: the output for a
    concatenation is the concatenation of the outputs. *)
Theorem _encode_ascii_app s1 s2 :
  exists out1 out2,
    _encode_ascii s1 = Ok out1 /\ _encode_ascii s2 = Ok out2 /\
    _encode_ascii (s1 ++ s2) = Ok (out1 ++ out2).
Proof.
  do 2 eexists. split; [apply _encode_ascii_value|].
  split; [apply _encode_ascii_value|].
  now rewrite _encode_ascii_value, filter_app, map_app.
Qed.

(** X7: the output of [_encode_ascii] has one character for each
    character of the input other than NUL, the parentheses and the
    backslash, so it is never longer than the input: a character outside
    ASCII gives one question mark whatever its code point. *)
Theorem _encode_ascii_length s :
  exists out, _encode_ascii s = Ok out /\
    length out = length (filter (fun c => ~ stripped c) s) /\
    (length out <= length s)%nat.
Proof.
  eexists. split; [apply _encode_ascii_value|].
  rewrite length_map. split; [reflexivity|]. apply length_filter.
Qed.

(** ** [_get_pdfa_def]: the substitution *)

Lemma str_encode_ascii_is_ascii s b : str_encode_ascii s = Ok b -> is_ascii s.
Proof.
  unfold is_ascii. revert b. induction s as [|c s IH]; intros b; [constructor|].
  cbn [str_encode_ascii]. destruct (N.ltb_spec c 128) as [Hc|Hc]; [|discriminate].
  destruct (str_encode_ascii s) as [r|e]; [|discriminate].
  intros _. constructor; [assumption|]. now apply (IH r).
Qed.

(** X8: [_get_pdfa_def] never raises, and its result is the template
    with the two arguments in the place of [$icc_profile] and
    [$icc_identifier], as they are: a dollar sign, a brace or a
    parenthesis in an argument is neither read again nor escaped. *)
Theorem _get_pdfa_def_verbatim {P A : Type} (icc_profile icc_identifier : pystr)
    (pdfmark : P) (ascii_docinfo : A) :
  pdfa_def_template =
    template_head ++ lit "$icc_profile" ++ template_body
      ++ lit "$icc_identifier" ++ template_tail /\
  _get_pdfa_def icc_profile icc_identifier pdfmark ascii_docinfo =
    Ok (template_head ++ icc_profile ++ template_body
          ++ icc_identifier ++ template_tail).
Proof. split; [apply pdfa_def_template_split|apply _get_pdfa_def_value]. Qed.

(** X9: the text that [_get_pdfa_def] returns is ASCII exactly when both
    arguments are, which is when [write_text] can encode it. *)
Theorem _get_pdfa_def_is_ascii {P A : Type} (icc_profile icc_identifier : pystr)
    (pdfmark : P) (ascii_docinfo : A) :
  exists ps,
    _get_pdfa_def icc_profile icc_identifier pdfmark ascii_docinfo = Ok ps /\
    (is_ascii ps <-> is_ascii icc_profile /\ is_ascii icc_identifier) /\
    ((exists b, str_encode_ascii ps = Ok b) <->
     is_ascii icc_profile /\ is_ascii icc_identifier).
Proof.
  eexists. split; [apply _get_pdfa_def_value|].
  destruct template_is_ascii as (Hh & Hb & Ht).
  assert (Hiff : is_ascii (template_head ++ icc_profile ++ template_body
                             ++ icc_identifier ++ template_tail)
                 <-> is_ascii icc_profile /\ is_ascii icc_identifier).
  { unfold is_ascii in *. rewrite !Forall_app. tauto. }
  split; [exact Hiff|]. rewrite <- Hiff. split.
  - intros [b Hb']. now apply str_encode_ascii_is_ascii in Hb'.
  - intros H. eexists. now apply str_encode_ascii_ok.
Qed.

(** ** [generate_pdfa_ps]: overwriting the target *)

Section GeneratorFurtherProperties.

Variable SRGB_ICC_PROFILE : pystr.
Variable os_fsencode : pystr -> result bytes.
Variable os_linesep : newline.
Variable writable : pystr -> bool.


End GeneratorFurtherProperties.


(** ** [file_claims_pdfa]: the fields of the result *)

Section CheckerFurtherProperties.

Variable pikepdf_open : pystr -> result Pdf.

(** X16: for a status that is not empty and not one of the eight codes,
    the result holds the conformance string and nothing else: the keys
    [pass] and [output] are absent. *)
Theorem file_claims_pdfa_unrecognized (filename : pystr) (pdf : Pdf)
    (pdfmeta : PdfMetadata) (status : pystr) :
  pikepdf_open filename = Ok pdf ->
  open_metadata pdf = Ok pdfmeta ->
  pdfa_status pdfmeta = Some status ->
  status <> [] ->
  status ∉ valid_part_conforms ->
  exists d : gmap pystr pyval,
    file_claims_pdfa pikepdf_open filename = Ok d /\
    d = <[lit "conformance" := VStr (lit "PDF/A-" ++ status)]> ∅ /\
    d !! lit "pass" = None /\ d !! lit "output" = None.
Proof.
  intros Hpdf Hmeta Hst Hne Hnin. eexists. split; [|split; [reflexivity|]].
  - unfold file_claims_pdfa.
    rewrite Hpdf. cbn [mbind result_bind]. rewrite Hmeta.
    cbn [mbind result_bind]. rewrite Hst.
    destruct status as [|c status]; [now destruct Hne|].
    now rewrite decide_False by assumption.
  - split; apply lookup_insert_None; (split; [apply lookup_empty|discriminate]).
Qed.

(** X17: in every result, [pass] is true exactly when the status is one
    of the eight codes, [output] is ['pdfa'] exactly when [pass] is true,
    and the conformance string is the fixed message exactly when the
    status is absent or empty. *)
Theorem file_claims_pdfa_fields (filename : pystr) (pdf : Pdf)
    (pdfmeta : PdfMetadata) :
  pikepdf_open filename = Ok pdf ->
  open_metadata pdf = Ok pdfmeta ->
  exists d : gmap pystr pyval,
    file_claims_pdfa pikepdf_open filename = Ok d /\
    (d !! lit "pass" = Some (VBool true) <->
     exists status, pdfa_status pdfmeta = Some status /\
                    status ∈ valid_part_conforms) /\
    (d !! lit "output" = Some (VStr (lit "pdfa")) <->
     d !! lit "pass" = Some (VBool true)) /\
    (conformance_of d = Some (lit "No PDF/A metadata in XMP") <->
     pdfa_status pdfmeta = None \/ pdfa_status pdfmeta = Some []).
Proof.
  intros Hpdf Hmeta. unfold file_claims_pdfa.
  rewrite Hpdf. cbn [mbind result_bind]. rewrite Hmeta.
  cbn [mbind result_bind].
  assert (Hempty : [] ∉ valid_part_conforms).
  { intros H. apply valid_part_conforms_elem in H.
    rewrite !elem_of_cons, elem_of_nil in H. intuition discriminate. }
  destruct (pdfa_status pdfmeta) as [[|c status]|].
  - eexists. split; [reflexivity|]. repeat split; try discriminate.
    + intros (st & [= <-] & Hin). now destruct Hempty.
    + now right.
  - destruct (decide (c :: status ∈ valid_part_conforms)) as [Hin|Hnin];
      (eexists; split; [reflexivity|]); repeat split; try discriminate;
      try reflexivity.
    + intros _. now exists (c :: status).
    + intros [H|H]; discriminate.
    + intros (st & [= <-] & Hin). now destruct Hnin.
    + intros [H|H]; discriminate.
  - eexists. split; [reflexivity|]. repeat split; try discriminate.
    + intros (st & H & _). discriminate.
    + now left.
Qed.

End CheckerFurtherProperties.

Lemma file_claims_pdfa_unrecognized_witness :
  exists d : gmap pystr pyval,
    file_claims_pdfa (fun _ => Ok (pdf_with_status (Some (lit "4F")))) (lit "in.pdf")
      = Ok d /\
    d = <[lit "conformance" := VStr (lit "PDF/A-" ++ lit "4F")]> ∅ /\
    d !! lit "pass" = None /\ d !! lit "output" = None.
Proof.
  apply (file_claims_pdfa_unrecognized _ _ (pdf_with_status (Some (lit "4F")))
           {| pdfa_status := Some (lit "4F") |} (lit "4F")).
  - reflexivity.
  - reflexivity.
  - reflexivity.
  - discriminate.
  - intros H. apply valid_part_conforms_elem in H.
    rewrite !elem_of_cons, elem_of_nil in H. intuition discriminate.
Defined.

Lemma file_claims_pdfa_fields_witness :
  exists d : gmap pystr pyval,
    file_claims_pdfa (fun _ => Ok (pdf_with_status (Some (lit "3U")))) (lit "in.pdf")
      = Ok d /\
    (d !! lit "pass" = Some (VBool true) <->
     exists status, Some (lit "3U") = Some status /\
                    status ∈ valid_part_conforms) /\
    (d !! lit "output" = Some (VStr (lit "pdfa")) <->
     d !! lit "pass" = Some (VBool true)) /\
    (conformance_of d = Some (lit "No PDF/A metadata in XMP") <->
     Some (lit "3U") = None \/ Some (lit "3U") = Some []).
Proof.
  apply (file_claims_pdfa_fields _ _ (pdf_with_status (Some (lit "3U")))
           {| pdfa_status := Some (lit "3U") |}).
  - reflexivity.
  - reflexivity.
Defined.
